(** * WiSAR data utilities ([utils/data.py]): loader, dataset and mosaic

    A shallow embedding of [MultiViewTemporalSample] and [ImageDataset].

    - Python exceptions are values of [exn]; every operation that can raise
      returns a [result].
    - A NumPy array is a shape together with an indexing function
      ([ndarray]); the 1024 x 1024 x 3 canvas of [integrate] is then a
      value one can evaluate pixel by pixel.
    - The file system is a finite map from path strings to nodes; a file is
      kept in decoded form (the pixels of a PNG, the value of a JSON
      document).
    - [cv2.warpPerspective] is external to the repository and is a
      parameter of [integrate]. *)

From Stdlib Require Import ZArith QArith List String Ascii Bool Lia.
From stdpp Require Import base option list list_monad strings gmap pretty.

Local Open Scope Z_scope.

(** ** Exceptions and results *)

Inductive exn : Type :=
| FileNotFoundError
| IsADirectoryError
| NotADirectoryError
| UnidentifiedImageError
| JSONDecodeError
| KeyError (key : string)
| TypeError
| IndexError
| ValueError
| AttributeError
| AssertionError
| CvError.

Inductive result (A : Type) : Type :=
| Ok (a : A)
| Raise (e : exn).
Arguments Ok {A} a.
Arguments Raise {A} e.

#[global] Instance result_ret : MRet result := fun _ a => Ok a.
#[global] Instance result_bind : MBind result := fun _ _ f m =>
  match m with Ok a => f a | Raise e => Raise e end.

Definition is_Ok {A} (r : result A) : bool :=
  match r with Ok _ => true | Raise _ => false end.

(** Left fold with early exit on the first exception: the shape of a
    [for] loop that updates local variables. *)
Fixpoint foldlM {A B} (f : A -> B -> result A) (l : list B) (a : A) : result A :=
  match l with
  | [] => Ok a
  | x :: l' => a' ← f a x; foldlM f l' a'
  end.

(** ** NumPy arrays

    The elements of an image of unsigned 8-bit integers are in [N]; the
    float canvas of [integrate] holds integers, in [Z]. *)

Record ndarray (A : Type) : Type := mk_ndarray {
  shape : list nat;
  item : list nat -> A
}.
Arguments mk_ndarray {A} shape item.
Arguments shape {A} n.
Arguments item {A} n idx.

(** Two arrays with the same shape and the same elements. *)
Definition arr_eq {A} (a b : ndarray A) : Prop :=
  shape a = shape b /\ forall idx, item a idx = item b idx.

(** Two runs that raise the same exception or return the same array. *)
Definition same_result {A} (r1 r2 : result (ndarray A)) : Prop :=
  match r1, r2 with
  | Ok a, Ok b => arr_eq a b
  | Raise e1, Raise e2 => e1 = e2
  | _, _ => False
  end.

Definition arr_map {A B} (f : A -> B) (a : ndarray A) : ndarray B :=
  mk_ndarray (shape a) (fun idx => f (item a idx)).

(** [np.zeros(shp)] *)
Definition np_zeros (shp : list nat) : ndarray Z :=
  mk_ndarray shp (fun _ => 0).

(** [~m] on a boolean array *)
Definition invert (m : ndarray bool) : ndarray bool := arr_map negb m.

(** [np.asarray(img, dtype=bool)]: non-zero becomes [True]. *)
Definition asarray_bool (a : ndarray N) : ndarray bool :=
  arr_map (fun x => negb (x =? 0)%N) a.

Definition shape_eqb (s1 s2 : list nat) : bool :=
  bool_decide (s1 = s2).

(** [np.array(l)] for a list of arrays: the arrays are stacked along a new
    leading axis.  Arrays of different shapes do not make a rectangular
    array (an "inhomogeneous shape" [ValueError] in NumPy 1.24 and later). *)
Definition np_array {A} `{Inhabited A} (l : list (ndarray A)) : result (ndarray A) :=
  match l with
  | [] => Ok (mk_ndarray [0%nat] (fun _ => inhabitant))
  | a0 :: _ =>
      if forallb (fun a => shape_eqb (shape a) (shape a0)) l
      then Ok (mk_ndarray (length l :: shape a0)
                 (fun idx => match idx with
                             | i :: idx' => item (nth i l a0) idx'
                             | [] => inhabitant
                             end))
      else Raise ValueError
  end.

(** Python's wrap-around of a negative index on an axis of length [n]. *)
Definition normalize_index (n : nat) (i : Z) : result nat :=
  if (0 <=? i) && (i <? Z.of_nat n) then Ok (Z.to_nat i)
  else if (- Z.of_nat n <=? i) && (i <? 0) then Ok (Z.to_nat (i + Z.of_nat n))
  else Raise IndexError.

(** [a[i]] for an integer [i]: the sub-array at position [i] of axis 0. *)
Definition getitem {A} (a : ndarray A) (i : Z) : result (ndarray A) :=
  match shape a with
  | [] => Raise IndexError
  | n :: rest =>
      k ← normalize_index n i;
      Ok (mk_ndarray rest (fun idx => item a (k :: idx)))
  end.

(** Iterating over an array yields its sub-arrays along axis 0. *)
Definition iter {A} (a : ndarray A) : result (list (ndarray A)) :=
  match shape a with
  | [] => Raise TypeError
  | n :: rest =>
      Ok (map (fun k => mk_ndarray rest (fun idx => item a (k :: idx))) (seq 0 n))
  end.

(** [a[m] = v] for a boolean array [m]: the shape of [m] has to match the
    leading axes of [a]; the elements under a [True] are overwritten. *)
Definition setitem_mask {A} (a : ndarray A) (m : ndarray bool) (v : A)
  : result (ndarray A) :=
  let k := length (shape m) in
  if shape_eqb (shape m) (take k (shape a))
  then Ok (mk_ndarray (shape a)
             (fun idx => if item m (take k idx) then v else item a idx))
  else Raise IndexError.

(** [np.sum(a, axis=-1)]; the accumulator of an unsigned 8-bit array is a
    64-bit unsigned integer, which the channel sums never exceed. *)
Definition np_sum_last (a : ndarray N) : result (ndarray N) :=
  match shape a with
  | [] => Raise ValueError
  | _ :: _ =>
      let n := List.last (shape a) 0%nat in
      Ok (mk_ndarray (removelast (shape a))
            (fun idx => fold_left N.add
                          (map (fun c => item a (idx ++ [c])) (seq 0 n)) 0%N))
  end.

(** [a > 0] *)
Definition gt0 (a : ndarray N) : ndarray bool := arr_map (fun x => (0 <? x)%N) a.

(** Broadcasting: shapes are aligned on their last axis; two lengths are
    compatible when they are equal or one of them is 1. *)
Definition broadcast_dim (a b : nat) : option nat :=
  if (a =? b)%nat then Some a
  else if (a =? 1)%nat then Some b
  else if (b =? 1)%nat then Some a
  else None.

Fixpoint broadcast_rev (r1 r2 : list nat) : option (list nat) :=
  match r1, r2 with
  | [], r => Some r
  | r, [] => Some r
  | a :: r1', b :: r2' =>
      d ← broadcast_dim a b; r ← broadcast_rev r1' r2'; Some (d :: r)
  end.

Definition broadcast_shapes (s1 s2 : list nat) : option (list nat) :=
  match broadcast_rev (rev s1) (rev s2) with
  | Some r => Some (rev r)
  | None => None
  end.

(** The index into an array of shape [shp] that an index [idx] of the
    broadcast shape reads: the trailing axes, with 0 on axes of length 1. *)
Definition bidx (shp idx : list nat) : list nat :=
  zip_with (fun d i => if (d =? 1)%nat then 0%nat else i)
    shp (drop (length idx - length shp) idx).

(** [np.where(c, x, y)] with a scalar [y]. *)
Definition np_where (c x : ndarray bool) (y : bool) : result (ndarray bool) :=
  match broadcast_shapes (shape c) (shape x) with
  | Some s =>
      Ok (mk_ndarray s (fun idx => if item c (bidx (shape c) idx)
                                   then item x (bidx (shape x) idx) else y))
  | None => Raise ValueError
  end.

(** [a += b] for a float array [a] and an array [b] of unsigned integers:
    [b] is broadcast to the shape of [a], which cannot change. *)
Definition iadd (a : ndarray Z) (b : ndarray N) : result (ndarray Z) :=
  if bool_decide (broadcast_shapes (shape a) (shape b) = Some (shape a))
  then Ok (mk_ndarray (shape a)
             (fun idx => item a idx + Z.of_N (item b (bidx (shape b) idx))))
  else Raise ValueError.

(** [a /= d] on the float canvas.  The canvas holds sums of at most ten
    8-bit values, which a double represents exactly, so an element is kept
    as an integer up to this point and the quotient as a rational: the
    double nearest to [s/d] has the same integer part as [s/d]. *)
Definition itruediv (a : ndarray Z) (d : positive) : ndarray Q :=
  arr_map (fun s => Qmake s d) a.

(** [np.uint8(a)] on floats: the fraction is dropped, the integer is kept
    modulo 256. *)
Definition uint8_of_Q (q : Q) : N :=
  Z.to_N ((Qnum q ÷ Z.pos (Qden q)) mod 256).
Definition np_uint8 (a : ndarray Q) : ndarray N := arr_map uint8_of_Q a.

#[global] Instance Q_inhabited : Inhabited Q := populate 0%Q.

(** ** Strings and paths *)

(** [str.lower] on ASCII text: the letters A-Z move to a-z. *)
Definition lower_ascii (c : ascii) : ascii :=
  let n := nat_of_ascii c in
  if ((65 <=? n) && (n <=? 90))%nat then ascii_of_nat (n + 32) else c.

Fixpoint lower (s : string) : string :=
  match s with
  | EmptyString => EmptyString
  | String c s' => String (lower_ascii c) (lower s')
  end.

Definition starts_with_sep (s : string) : bool :=
  match s with
  | String c _ => bool_decide (c = "/"%char)
  | EmptyString => false
  end.

Fixpoint ends_with_sep (s : string) : bool :=
  match s with
  | EmptyString => false
  | String c EmptyString => bool_decide (c = "/"%char)
  | String _ s' => ends_with_sep s'
  end.

(** [os.path.join(a, b)] of [posixpath]. *)
Definition path_join (a b : string) : string :=
  if starts_with_sep b then b
  else if bool_decide (a = EmptyString) || ends_with_sep a then a +:+ b
  else a +:+ "/" +:+ b.

(** [str(n)] for a non-negative integer. *)
Definition str (n : nat) : string := pretty n.

(** ** The file system *)

(** A parsed JSON document: the object of [homographies.json], whose
    values are rectangular nested lists of numbers, or the list of boxes
    of [labels.json]. *)
Inductive json_doc : Type :=
| JsonDict (d : gmap string (ndarray Q))
| JsonList (l : list (list Z)).

Inductive file : Type :=
| Png (img : ndarray N)
| Json (doc : json_doc).

Inductive node : Type :=
| Dir (entries : list string)
| File (f : file).

Abbreviation filesystem := (gmap string node).

(** [np.asarray(Image.open(p))].  The array is a fresh one for every call
    and can be written to, as the masking of line 69 needs. *)
Definition image_open (fs : filesystem) (p : string) : result (ndarray N) :=
  match fs !! p with
  | Some (File (Png img)) => Ok img
  | Some (File (Json _)) => Raise UnidentifiedImageError
  | Some (Dir _) => Raise IsADirectoryError
  | None => Raise FileNotFoundError
  end.

(** [json.load(open(p))] *)
Definition json_load (fs : filesystem) (p : string) : result json_doc :=
  match fs !! p with
  | Some (File (Json doc)) => Ok doc
  | Some (File (Png _)) => Raise JSONDecodeError
  | Some (Dir _) => Raise IsADirectoryError
  | None => Raise FileNotFoundError
  end.

(** [os.listdir(p)] and [os.path.isdir(p)] *)
Definition listdir (fs : filesystem) (p : string) : result (list string) :=
  match fs !! p with
  | Some (Dir entries) => Ok entries
  | Some (File _) => Raise NotADirectoryError
  | None => Raise FileNotFoundError
  end.

Definition isdir (fs : filesystem) (p : string) : bool :=
  match fs !! p with
  | Some (Dir _) => true
  | _ => false
  end.

(** [doc[name]] for a string key. *)
Definition json_getitem (doc : json_doc) (name : string) : result (ndarray Q) :=
  match doc with
  | JsonDict d =>
      match d !! name with
      | Some h => Ok h
      | None => Raise (KeyError name)
      end
  | JsonList _ => Raise TypeError
  end.

(** ** [MultiViewTemporalSample] (lines 20-116) *)

Definition _photo_order : list string :=
  ["B05"; "B04"; "B03"; "B02"; "B01"; "G01"; "G02"; "G03"; "G04"; "G05"]%string.

Record MultiViewTemporalSample : Type := mk_sample {
  photos : ndarray N;
  homographies : ndarray Q;
  mask : option (ndarray bool);
  labels : option json_doc
}.

(** The name of one photo, [str(timestep) + "-" + perspective]. *)
Definition photo_name (timestep : nat) (perspective : string) : string :=
  str timestep +:+ "-" +:+ perspective.

(** The body of the inner loop of [__init__] (lines 64-72): one photo with
    its homography, the photo masked when a mask was given. *)
Definition load_photo (fs : filesystem) (sample_path : string)
    (homography_dict : json_doc) (mask : option (ndarray bool))
    (timestep : nat) (perspective : string)
  : result (ndarray Q * ndarray N) :=
  let name := photo_name timestep perspective in
  photo ← image_open fs (path_join sample_path (name +:+ ".png"));
  homography ← json_getitem homography_dict name;
  photo ← match mask with
          | Some m => setitem_mask photo m 0%N
          | None => Ok photo
          end;
  Ok (homography, photo).

(** The body of the outer loop (lines 61-76): the ten perspectives of one
    timestep, stacked. *)
Definition load_timestep (fs : filesystem) (sample_path : string)
    (homography_dict : json_doc) (mask : option (ndarray bool))
    (timestep : nat) : result (ndarray N * ndarray Q) :=
  cells ← mapM (load_photo fs sample_path homography_dict mask timestep)
            _photo_order;
  timestep_photos ← np_array (map snd cells);
  timestep_homographies ← np_array (map fst cells);
  Ok (timestep_photos, timestep_homographies).

(** [MultiViewTemporalSample.__init__] (lines 40-84).  A sample has labels
    exactly when the attribute [labels] was assigned. *)
Definition MultiViewTemporalSample_init (fs : filesystem)
    (sample_path mode : string) (mask : option (ndarray bool))
  : result MultiViewTemporalSample :=
  homography_dict ← json_load fs (path_join sample_path "homographies.json");
  rows ← mapM (load_timestep fs sample_path homography_dict mask) (seq 0 7);
  photos ← np_array (map fst rows);
  homographies ← np_array (map snd rows);
  labels ← (if bool_decide (mode = "validation"%string)
            then doc ← json_load fs (path_join sample_path "labels.json");
                 Ok (Some doc)
            else Ok None);
  Ok (mk_sample photos homographies mask labels).

(** [zip(self.photos[timestep], self.homographies[timestep])] (line 106) *)
Definition zip_views (self : MultiViewTemporalSample) (timestep : Z)
  : result (list (ndarray N * ndarray Q)) :=
  photos_t ← getitem (photos self) timestep;
  homographies_t ← getitem (homographies self) timestep;
  ps ← iter photos_t;
  hs ← iter homographies_t;
  Ok (zip ps hs).

Section Integrate.

(** [cv2.warpPerspective(src, M, dsize)] *)
Variable warpPerspective :
  ndarray N -> ndarray Q -> list nat -> result (ndarray N).

(** One round of the loop of [integrate] (lines 108-111). *)
Definition integrate_step (acc : ndarray bool * ndarray Z)
    (ph : ndarray N * ndarray Q) : result (ndarray bool * ndarray Z) :=
  let '(ov_mask, integrated_image) := acc in
  let '(photo, homography) := ph in
  warped_image ← warpPerspective photo homography (take 2 (shape photo));
  sums ← np_sum_last warped_image;
  ov_mask ← np_where (gt0 sums) ov_mask false;
  integrated_image ← iadd integrated_image warped_image;
  Ok (ov_mask, integrated_image).

(** [MultiViewTemporalSample.integrate] (lines 100-116) *)
Definition integrate (self : MultiViewTemporalSample) (timestep : Z)
  : result (ndarray N) :=
  m ← match mask self with
      | Some m => Ok m
      | None => Raise AttributeError
      end;
  let ov_mask := invert m in
  let integrated_image := np_zeros [1024; 1024; 3]%nat in
  views ← zip_views self timestep;
  acc ← foldlM integrate_step views (ov_mask, integrated_image);
  integrated_image ← setitem_mask (snd acc) (invert (fst acc)) 0;
  Ok (np_uint8 (itruediv integrated_image 10)).

End Integrate.

(** ** The pixels of the mosaic *)






(** ** [ImageDataset] (lines 134-175) *)

Record ImageDataset : Type := mk_dataset {
  path : string;
  samples : list MultiViewTemporalSample
}.

Definition recognized_modes : list string :=
  ["train"; "test"; "validation"]%string.

(** [__init__] after the assertion, [mode] already in lower case
    (lines 157-169). *)
Definition ImageDataset_init_body (fs : filesystem)
    (data_path mode : string) (apply_mask : bool) : result ImageDataset :=
  let path := path_join data_path mode in
  mask ← (if apply_mask
          then img ← image_open fs (path_join "data" "mask.png");
               Ok (Some (invert (asarray_bool img)))
          else Ok None);
  entries ← listdir fs path;
  samples ← mapM (fun s => MultiViewTemporalSample_init fs (path_join path s) mode mask)
              (List.filter (fun s => isdir fs (path_join path s)) entries);
  Ok (mk_dataset path samples).

(** [ImageDataset.__init__] (lines 154-169).  The stored array of samples
    is kept as the list it is made from. *)
Definition ImageDataset_init (fs : filesystem)
    (data_path mode : string) (apply_mask : bool) : result ImageDataset :=
  let mode := lower mode in
  if bool_decide (mode ∈ recognized_modes)
  then ImageDataset_init_body fs data_path mode apply_mask
  else Raise AssertionError.


Definition ImageDataset_getitem (self : ImageDataset) (index : Z)
  : result MultiViewTemporalSample :=
  k ← normalize_index (length (samples self)) index;
  match samples self !! k with
  | Some s => Ok s
  | None => Raise IndexError
  end.

(** ** [draw_labels] (lines 118-130) *)

(** The attribute [labels] of a sample. *)
Definition labels_of (self : MultiViewTemporalSample) : option json_doc :=
  labels self.

(** Writing through the view [a[i, j]]: the elements of [a] under the
    leading indices [i], [j] become those of [v]. *)
Definition set_view2 {A} (a : ndarray A) (i j : nat) (v : ndarray A) : ndarray A :=
  mk_ndarray (shape a)
    (fun idx => match idx with
                | i' :: j' :: rest =>
                    if ((i' =? i) && (j' =? j))%nat then item v rest else item a idx
                | _ => item a idx
                end).

(** [label[k]] *)
Definition label_get (label : list Z) (k : nat) : result Z :=
  match label !! k with
  | Some x => Ok x
  | None => Raise IndexError
  end.

Section DrawLabels.

Variable warpPerspective :
  ndarray N -> ndarray Q -> list nat -> result (ndarray N).

(** [cv2.rectangle(img, pt1, pt2, color, thickness)]: the image with the
    rectangle drawn.  OpenCV draws into the buffer of [img] and returns
    it. *)
Variable rectangle :
  ndarray N -> Z * Z -> Z * Z -> N * N * N -> Z -> result (ndarray N).

(** One round of the loop (line 126). *)
Definition draw_label (image : ndarray N) (label : list Z) : result (ndarray N) :=
  x ← label_get label 0;
  y ← label_get label 1;
  w ← label_get label 2;
  h ← label_get label 3;
  rectangle image (x, y) (x + w, y + h) (0, 0, 255)%N 5.

(** [draw_labels] up to the plotting calls (lines 120-126): the image that
    is handed to [plt.imshow], and the sample afterwards.  Without
    [on_integrated] the image is the view [self.photos[3, 4]], so the
    rectangles are drawn into the photos of the sample; the mosaic of
    [integrate] is an array of its own. *)
Definition draw_labels (self : MultiViewTemporalSample) (labels : list (list Z))
    (on_integrated : bool) : result (MultiViewTemporalSample * ndarray N) :=
  image ← (if on_integrated
           then integrate warpPerspective self 3
           else photos_3 ← getitem (photos self) 3; getitem photos_3 4);
  image ← foldlM draw_label labels image;
  let self' :=
    if on_integrated then self
    else mk_sample (set_view2 (photos self) 3 4 image)
           (homographies self) (mask self) (labels_of self)
  in Ok (self', image).

End DrawLabels.

(** ** Well-formed inputs of the loader *)



(** The value of a run that returned, [d] otherwise. *)
Definition get_Ok {A} (d : A) (r : result A) : A :=
  match r with Ok a => a | Raise _ => d end.

(** ** Concrete inputs

    File systems, masks and a stand-in for [cv2.warpPerspective] on which
    the definitions above are evaluated. *)
Module Fixtures.

(** An [n] x [n] colour photo whose pixels depend on the timestep [t]
    and on the position [k] of the perspective. *)
Definition photo_px (n t k : nat) : ndarray N :=
  mk_ndarray [n; n; 3%nat]
    (fun idx => match idx with
                | [i; j; c] => N.of_nat (1 + (i + j + c + 10 * k + t) mod 200)
                | _ => 0%N
                end).

Definition identity3 : ndarray Q :=
  mk_ndarray [3; 3]%nat
    (fun idx => match idx with
                | [i; j] => if (i =? j)%nat then 1%Q else 0%Q
                | _ => 0%Q
                end).

(** The 70 (timestep, position, perspective) triples of a sample. *)
Definition views : list (nat * nat * string) :=
  t ← seq 0 7; '(k, p) ← imap (fun k p => (k, p)) _photo_order; [(t, k, p)].

Definition homographies_json : json_doc :=
  JsonDict (list_to_map
              (map (fun v => (photo_name v.1.1 v.2, identity3)) views)).

Definition photo_files (dir : string) (n : nat) : list (string * node) :=
  map (fun v => (path_join dir (photo_name v.1.1 v.2 +:+ ".png"),
                 File (Png (photo_px n v.1.1 v.1.2)))) views.

Definition boxes : json_doc := JsonList [[10; 20; 30; 40]; [5; 5; 8; 8]].

(** A complete sample directory, with [labels.json] when [with_labels]. *)
Definition sample_dir (dir : string) (n : nat) (with_labels : bool)
  : list (string * node) :=
  (path_join dir "homographies.json", File (Json homographies_json))
  :: (if with_labels
      then [(path_join dir "labels.json", File (Json boxes))]
      else [])
  ++ photo_files dir n.

(** The mask image: white (255) on the left half, black elsewhere. *)
Definition mask_png (n : nat) : ndarray N :=
  mk_ndarray [n; n]
    (fun idx => match idx with
                | [i; j] => if (j <? n / 2)%nat then 255%N else 0%N
                | _ => 0%N
                end).

(** [data/] with masks and photos of side [n]: two training samples next
    to a plain file, and one validation sample. *)
Definition data_fs (n : nat) : filesystem :=
  list_to_map
    ([("data"%string, Dir ["mask.png"; "train"; "validation"]%string);
      ("data/mask.png"%string, File (Png (mask_png n)));
      ("data/train"%string, Dir ["s0"; "notes.txt"; "s1"]%string);
      ("data/train/notes.txt"%string, File (Json (JsonList [])));
      ("data/train/s0"%string, Dir []);
      ("data/train/s1"%string, Dir []);
      ("data/validation"%string, Dir ["v0"]%string);
      ("data/validation/v0"%string, Dir [])]
     ++ sample_dir "data/train/s0" n false
     ++ sample_dir "data/train/s1" n false
     ++ sample_dir "data/validation/v0" n true).

Definition fs_small : filesystem := data_fs 4.
Definition fs_big : filesystem := data_fs 1024.

(** The data lives under [elsewhere/]; there is no [data/] directory. *)
Definition fs_elsewhere : filesystem :=
  list_to_map
    ([("elsewhere"%string, Dir ["mask.png"; "train"]%string);
      ("elsewhere/mask.png"%string, File (Png (mask_png 4)));
      ("elsewhere/train"%string, Dir ["s0"]%string);
      ("elsewhere/train/s0"%string, Dir [])]
     ++ sample_dir "elsewhere/train/s0" 4 false).

(** [fs_small] with one file of a sample removed. *)
Definition fs_no_photo : filesystem :=
  delete "data/train/s0/3-B01.png"%string fs_small.
Definition fs_no_homographies : filesystem :=
  delete "data/train/s0/homographies.json"%string fs_small.
Definition fs_no_labels : filesystem :=
  delete "data/validation/v0/labels.json"%string fs_small.

(** [fs_small] where the homographies of [s0] lack the entry "6-G05". *)
Definition homographies_short : gmap string (ndarray Q) :=
  list_to_map (map (fun v => (photo_name v.1.1 v.2, identity3))
                 (removelast views)).
Definition fs_no_key : filesystem :=
  <["data/train/s0/homographies.json"%string :=
      File (Json (JsonDict homographies_short))]> fs_small.

(** The mask the dataset derives from [mask_png n]. *)
Definition mask_of (n : nat) : ndarray bool :=
  invert (asarray_bool (mask_png n)).

(** [cv2.warpPerspective] at the identity homography: the output has
    [dsize = (width, height)], that is shape (height, width, channels);
    it copies the source where the source has a pixel and is 0
    elsewhere. *)
Definition warp_identity (src : ndarray N) (M : ndarray Q) (dsize : list nat)
  : result (ndarray N) :=
  match dsize, shape src with
  | [w; h], [sh; sw; c] =>
      Ok (mk_ndarray [h; w; c]
            (fun idx => match idx with
                        | [i; j; _] =>
                            if ((i <? sh) && (j <? sw))%nat
                            then item src idx else 0%N
                        | _ => 0%N
                        end))
  | _, _ => Raise CvError
  end.

Definition no_sample : MultiViewTemporalSample :=
  mk_sample (mk_ndarray [] (fun _ => 0%N)) (mk_ndarray [] (fun _ => 0%Q))
    None None.

(** The sample loaded from [dir], and the dataset built from [data/]. *)
Definition loaded (fs : filesystem) (dir mode : string)
    (m : option (ndarray bool)) : MultiViewTemporalSample :=
  get_Ok no_sample (MultiViewTemporalSample_init fs dir mode m).

Definition built (fs : filesystem) (mode : string) (apply_mask : bool)
  : ImageDataset :=
  get_Ok (mk_dataset "" []) (ImageDataset_init fs "data" mode apply_mask).

(** A stand-in for [cv2.rectangle]: the colour is written on a band of
    [thickness] pixels around the outline from [pt1] to [pt2]; a point is
    (column, row). *)
Definition rect_outline (img : ndarray N) (pt1 pt2 : Z * Z) (color : N * N * N)
    (thickness : Z) : result (ndarray N) :=
  let r := thickness / 2 in
  Ok (mk_ndarray (shape img)
        (fun idx =>
           match idx with
           | [i; j; c] =>
               let row := Z.of_nat i in
               let col := Z.of_nat j in
               let near a lo hi := (lo - r <=? a) && (a <=? hi + r) in
               let within a lo hi := (lo + r <? a) && (a <? hi - r) in
               if near col pt1.1 pt2.1 && near row pt1.2 pt2.2
                  && negb (within col pt1.1 pt2.1 && within row pt1.2 pt2.2)
               then match c with
                    | 0%nat => color.1.1
                    | 1%nat => color.1.2
                    | _ => color.2
                    end
               else item img idx
           | _ => item img idx
           end)).

(** [data/] of side 4 where the directory [s1] has lost its homographies. *)
Definition fs_broken_s1 : filesystem :=
  delete "data/train/s1/homographies.json"%string fs_small.


(** A warp that raises on every input. *)
Definition warp_fails (src : ndarray N) (M : ndarray Q) (dsize : list nat)
  : result (ndarray N) := Raise CvError.

End Fixtures.

(** ** The result monad *)

(** Settles a decidable closed proposition by evaluation. *)
Ltac by_decide :=
  lazymatch goal with
  | |- ?P => refine (@bool_decide_unpack P _ _); vm_compute; exact I
  end.

Lemma Ok_bind {A B} (a : A) (f : A -> result B) : Ok a ≫= f = f a.
Proof. reflexivity. Qed.

Lemma bind_Ok {A B} (m : result A) (f : A -> result B) (b : B) :
  m ≫= f = Ok b -> exists a, m = Ok a /\ f a = Ok b.
Proof. destruct m as [a|e]; simpl; [eauto | discriminate]. Qed.


Lemma mapM_Ok {A B} (f : A -> result B) (l : list A) (k : list B) :
  mapM f l = Ok k -> Forall2 (fun x y => f x = Ok y) l k.
Proof.
  revert k. induction l as [|x l IH]; intros k; simpl.
  - intros [= <-]. constructor.
  - intros H. apply bind_Ok in H as (y & Hy & H).
    apply bind_Ok in H as (k' & Hk' & [= <-]).
    constructor; auto.
Qed.


Lemma mapM_Raise {A B} (f : A -> result B) (l : list A) (x : A) :
  x ∈ l -> is_Ok (f x) = false -> is_Ok (mapM f l) = false.
Proof.
  induction 1 as [x l | x y l _ IH]; simpl; intros Hx.
  - destruct (f x); [discriminate | reflexivity].
  - destruct (f y); [|reflexivity]. simpl.
    specialize (IH Hx). destruct (mapM f l); [discriminate | reflexivity].
Qed.

Lemma is_Ok_get {A} (d : A) (r : result A) :
  is_Ok r = true -> r = Ok (get_Ok d r).
Proof. destruct r; [reflexivity | discriminate]. Qed.

Lemma is_Ok_false {A} (r : result A) :
  is_Ok r = false -> exists e, r = Raise e.
Proof. destruct r; [discriminate | eauto]. Qed.

Lemma json_load_missing fs p : fs !! p = None -> json_load fs p = Raise FileNotFoundError.
Proof. unfold json_load. intros ->. reflexivity. Qed.

Lemma image_open_missing fs p : fs !! p = None -> image_open fs p = Raise FileNotFoundError.
Proof. unfold image_open. intros ->. reflexivity. Qed.

(** ** Masking *)


(** C7. Zeroing the pixels under a boolean mask is idempotent: masking a
    masked image again raises or returns exactly what the first masking
    did, for every image and every mask. *)
Theorem mask_application_idempotent (photo : ndarray N) (m : ndarray bool) :
  same_result (setitem_mask photo m 0%N ≫= fun once => setitem_mask once m 0%N)
              (setitem_mask photo m 0%N).
Proof.
  unfold setitem_mask.
  destruct (shape_eqb (shape m) (take (length (shape m)) (shape photo))) eqn:E;
    simpl; [|reflexivity].
  rewrite E. split; simpl; [reflexivity|].
  intros idx. destruct (item m (take (length (shape m)) idx)); reflexivity.
Qed.

(** ** The mode guard of the dataset *)






(** ** The mask of a sample and [integrate] *)

Lemma sample_init_mask fs sample_path mode m self :
  MultiViewTemporalSample_init fs sample_path mode m = Ok self -> mask self = m.
Proof.
  unfold MultiViewTemporalSample_init. intros H.
  repeat match type of H with
  | _ ≫= _ = Ok _ => apply bind_Ok in H as (? & _ & H)
  end.
  injection H as <-. reflexivity.
Qed.

(** C10. A sample loaded with the mask argument [None] cannot be
    integrated: [integrate] raises at its first statement, whatever the
    timestep; so a call of [integrate] that returns was made on a sample
    loaded with a mask. *)
Theorem integrate_needs_mask
    (warp : ndarray N -> ndarray Q -> list nat -> result (ndarray N))
    (fs : filesystem) (sample_path mode : string) (m : option (ndarray bool))
    (self : MultiViewTemporalSample) (timestep : Z) :
  MultiViewTemporalSample_init fs sample_path mode m = Ok self ->
  (m = None -> integrate warp self timestep = Raise AttributeError) /\
  (is_Ok (integrate warp self timestep) = true -> is_Some m).
Proof.
  intros Hload. apply sample_init_mask in Hload.
  unfold integrate. rewrite Hload. destruct m as [m|]; simpl.
  - split; [discriminate | eauto].
  - split; [reflexivity | discriminate].
Qed.

(** C10, witness: the first training sample of the 1024-pixel data,
    loaded without a mask and integrated at timestep 3. *)
Lemma integrate_needs_mask_witness :
  integrate Fixtures.warp_identity
    (Fixtures.loaded Fixtures.fs_big "data/train/s0" "train" None) 3
  = Raise AttributeError.
Proof.
  apply (integrate_needs_mask Fixtures.warp_identity Fixtures.fs_big
           "data/train/s0" "train" None).
  - apply is_Ok_get. vm_compute. reflexivity.
  - reflexivity.
Defined.

(** ** Where the dataset reads its mask *)

(** With masking on, a constructor that gets past the guard needs
    "data/mask.png", whatever the data path. *)
Lemma mask_needs_fixed_path (fs : filesystem) (data_path mode : string) :
  lower mode ∈ recognized_modes ->
  fs !! "data/mask.png"%string = None ->
  ImageDataset_init fs data_path mode true = Raise FileNotFoundError.
Proof.
  intros Hmode Hnone. unfold ImageDataset_init.
  rewrite bool_decide_eq_true_2 by exact Hmode.
  unfold ImageDataset_init_body.
  change (path_join "data" "mask.png") with "data/mask.png"%string.
  rewrite (image_open_missing _ _ Hnone). reflexivity.
Qed.

(** C4, the code at a data path other than "data": the mask file of the
    data path exists and can be opened, the dataset is built without
    masking, and with masking the constructor looks for "data/mask.png"
    and raises. *)
Lemma mask_path_ignores_data_path :
  is_Ok (image_open Fixtures.fs_elsewhere (path_join "elsewhere" "mask.png")) = true /\
  is_Ok (ImageDataset_init Fixtures.fs_elsewhere "elsewhere" "train" false) = true /\
  ImageDataset_init Fixtures.fs_elsewhere "elsewhere" "train" true
  = Raise FileNotFoundError.
Proof.
  split; [|split]; [vm_compute; reflexivity ..|].
  apply mask_needs_fixed_path; [by_decide | vm_compute; reflexivity].
Qed.

(** ** Failing loads *)

Lemma is_Ok_bind_l {A B} (m : result A) (f : A -> result B) :
  is_Ok m = false -> is_Ok (m ≫= f) = false.
Proof. destruct m; [discriminate | reflexivity]. Qed.

Lemma is_Ok_bind_r {A B} (m : result A) (f : A -> result B) :
  (forall a, m = Ok a -> is_Ok (f a) = false) -> is_Ok (m ≫= f) = false.
Proof. destruct m; simpl; [auto | reflexivity]. Qed.

(** A photo that cannot be loaded fails the load of its timestep. *)
Lemma load_timestep_fails fs sample_path doc m t persp :
  persp ∈ _photo_order ->
  is_Ok (load_photo fs sample_path doc m t persp) = false ->
  is_Ok (load_timestep fs sample_path doc m t) = false.
Proof.
  intros Hin Hp. unfold load_timestep.
  apply is_Ok_bind_l. exact (mapM_Raise _ _ _ Hin Hp).
Qed.

(** A timestep that cannot be loaded fails the load of the sample. *)
Lemma sample_init_fails fs sample_path mode m doc t :
  json_load fs (path_join sample_path "homographies.json") = Ok doc ->
  (t < 7)%nat ->
  is_Ok (load_timestep fs sample_path doc m t) = false ->
  is_Ok (MultiViewTemporalSample_init fs sample_path mode m) = false.
Proof.
  intros Hdoc Ht Hfail. unfold MultiViewTemporalSample_init.
  rewrite Hdoc, Ok_bind. apply is_Ok_bind_l.
  apply (mapM_Raise _ _ t); [|exact Hfail].
  apply elem_of_seq. lia.
Qed.

(** C5. The load of a sample is all or nothing: when one of the 70 photo
    files is missing, or [homographies.json] is missing, or the homography
    dictionary has no entry for one of the 70 names, or the mode is
    validation and [labels.json] is missing, the load raises an exception
    and no sample is produced. *)
Theorem load_all_or_nothing (fs : filesystem) (sample_path mode : string)
    (m : option (ndarray bool)) :
  (exists t persp, (t < 7)%nat /\ persp ∈ _photo_order /\
     fs !! path_join sample_path (photo_name t persp +:+ ".png") = None) \/
  fs !! path_join sample_path "homographies.json" = None \/
  (exists d t persp, (t < 7)%nat /\ persp ∈ _photo_order /\
     json_load fs (path_join sample_path "homographies.json") = Ok (JsonDict d) /\
     d !! photo_name t persp = None) \/
  (mode = "validation"%string /\ fs !! path_join sample_path "labels.json" = None) ->
  exists e, MultiViewTemporalSample_init fs sample_path mode m = Raise e.
Proof.
  intros H. apply is_Ok_false.
  destruct H as [(t & persp & Ht & Hin & Hnone) | [Hnone | [(d & t & persp & Ht & Hin & Hd & Hkey) | [-> Hnone]]]].
  - destruct (json_load fs (path_join sample_path "homographies.json")) as [doc|e] eqn:Hdoc.
    + apply (sample_init_fails _ _ _ _ doc t Hdoc Ht).
      apply (load_timestep_fails _ _ _ _ _ persp Hin).
      unfold load_photo. rewrite (image_open_missing _ _ Hnone). reflexivity.
    + unfold MultiViewTemporalSample_init. rewrite Hdoc. reflexivity.
  - unfold MultiViewTemporalSample_init.
    rewrite (json_load_missing _ _ Hnone). reflexivity.
  - apply (sample_init_fails _ _ _ _ _ t Hd Ht).
    apply (load_timestep_fails _ _ _ _ _ persp Hin).
    unfold load_photo. apply is_Ok_bind_r. intros photo _.
    simpl. rewrite Hkey. reflexivity.
  - unfold MultiViewTemporalSample_init.
    do 4 (apply is_Ok_bind_r; intros ? _).
    rewrite bool_decide_eq_true_2 by reflexivity.
    rewrite (json_load_missing _ _ Hnone). reflexivity.
Qed.

(** C5, witness: one sample directory for each of the four ways to fail. *)
Lemma load_all_or_nothing_witness :
  (exists e, MultiViewTemporalSample_init Fixtures.fs_no_photo
               "data/train/s0" "train" None = Raise e) /\
  (exists e, MultiViewTemporalSample_init Fixtures.fs_no_homographies
               "data/train/s0" "train" None = Raise e) /\
  (exists e, MultiViewTemporalSample_init Fixtures.fs_no_key
               "data/train/s0" "train" None = Raise e) /\
  (exists e, MultiViewTemporalSample_init Fixtures.fs_no_labels
               "data/validation/v0" "validation" None = Raise e).
Proof.
  repeat split; apply load_all_or_nothing.
  - left. exists 3%nat, "B01"%string.
    split; [lia | split; [by_decide | vm_compute; reflexivity]].
  - right; left. vm_compute; reflexivity.
  - right; right; left. exists Fixtures.homographies_short, 6%nat, "G05"%string.
    split; [lia | split; [by_decide | split; vm_compute; reflexivity]].
  - right; right; right. split; [reflexivity | vm_compute; reflexivity].
Defined.

(** ** Length and indexing of the dataset *)

Lemma normalize_index_nat (n i : nat) :
  (i < n)%nat -> normalize_index n (Z.of_nat i) = Ok i.
Proof.
  intros Hi. unfold normalize_index.
  assert (H1 : (0 <=? Z.of_nat i) = true) by (apply Z.leb_le; lia).
  assert (H2 : (Z.of_nat i <? Z.of_nat n) = true) by (apply Z.ltb_lt; lia).
  rewrite H1, H2. simpl. rewrite Nat2Z.id. reflexivity.
Qed.



(** ** The layout of a loaded sample *)

Lemma shape_eqb_eq (s1 s2 : list nat) : shape_eqb s1 s2 = true <-> s1 = s2.
Proof. unfold shape_eqb. apply bool_decide_eq_true. Qed.

(** Indexing a stacked array gives back the stacked arrays. *)
Lemma np_array_getitem {A} `{Inhabited A} (l : list (ndarray A)) (a : ndarray A)
    (i : nat) (x : ndarray A) :
  np_array l = Ok a -> l !! i = Some x -> getitem a (Z.of_nat i) = Ok x.
Proof.
  intros Ha Hi.
  assert (Hlt : (i < length l)%nat) by (eapply lookup_lt_Some; exact Hi).
  unfold np_array in Ha. destruct l as [|a0 l'] eqn:El; [discriminate Hi|].
  rewrite <- El in *. clear El.
  destruct (forallb _ l) eqn:Hall; [|discriminate].
  apply (f_equal (get_Ok a)) in Ha. cbn [get_Ok] in Ha. subst a.
  unfold getitem; cbn [shape].
  rewrite (normalize_index_nat _ _ Hlt), Ok_bind. f_equal.
  rewrite forallb_forall in Hall.
  assert (Hx : shape x = shape a0).
  { apply shape_eqb_eq, Hall, list_elem_of_In, list_elem_of_lookup. eauto. }
  cbn [item]. rewrite (nth_lookup_Some _ _ a0 _ Hi).
  destruct x as [sx ix]; simpl in *. subst sx. reflexivity.
Qed.


Lemma load_timestep_Ok fs sample_path doc m t tp th :
  load_timestep fs sample_path doc m t = Ok (tp, th) ->
  exists cells,
    Forall2 (fun p c => load_photo fs sample_path doc m t p = Ok c)
      _photo_order cells /\
    np_array (map snd cells) = Ok tp /\ np_array (map fst cells) = Ok th.
Proof.
  unfold load_timestep. intros H.
  apply bind_Ok in H as (cells & Hc & H).
  apply bind_Ok in H as (tp' & Htp & H).
  apply bind_Ok in H as (th' & Hth & [= <- <-]).
  exists cells. split; [apply mapM_Ok; exact Hc | split; assumption].
Qed.

Lemma sample_init_Ok fs sample_path mode m self :
  MultiViewTemporalSample_init fs sample_path mode m = Ok self ->
  exists doc rows,
    json_load fs (path_join sample_path "homographies.json") = Ok doc /\
    Forall2 (fun t row => load_timestep fs sample_path doc m t = Ok row)
      (seq 0 7) rows /\
    np_array (map fst rows) = Ok (photos self) /\
    np_array (map snd rows) = Ok (homographies self).
Proof.
  unfold MultiViewTemporalSample_init. intros H.
  apply bind_Ok in H as (doc & Hdoc & H).
  apply bind_Ok in H as (rows & Hrows & H).
  apply bind_Ok in H as (ps & Hps & H).
  apply bind_Ok in H as (hs & Hhs & H).
  apply bind_Ok in H as (lb & _ & [= <-]).
  exists doc, rows. simpl. split; [exact Hdoc|].
  split; [apply mapM_Ok; exact Hrows | split; assumption].
Qed.

Lemma load_photo_Ok fs sample_path doc m t persp hom photo :
  load_photo fs sample_path doc m t persp = Ok (hom, photo) ->
  exists img,
    image_open fs (path_join sample_path (photo_name t persp +:+ ".png")) = Ok img /\
    json_getitem doc (photo_name t persp) = Ok hom /\
    match m with Some mk => setitem_mask img mk 0%N | None => Ok img end = Ok photo.
Proof.
  unfold load_photo. intros H.
  apply bind_Ok in H as (img & Himg & H).
  apply bind_Ok in H as (hom' & Hhom & H).
  apply bind_Ok in H as (photo' & Hph & [= <- <-]).
  exists img. auto.
Qed.



(** ** Shapes of a loaded sample *)


Lemma forallb_elem_of {A} (f : A -> bool) (l : list A) (x : A) :
  forallb f l = true -> x ∈ l -> f x = true.
Proof.
  intros Hall Hx. rewrite forallb_forall in Hall.
  apply Hall, list_elem_of_In, Hx.
Qed.




(** ** The loop of [integrate] on canvas-sized images *)













(** ** The mosaic *)







(** ** More on the loader *)



(** Where each photo and homography of a loaded sample comes from. *)
Lemma sample_init_cell fs sample_path mode m self t k persp :
  MultiViewTemporalSample_init fs sample_path mode m = Ok self ->
  (t < 7)%nat -> _photo_order !! k = Some persp ->
  exists img photo photos_t,
    image_open fs (path_join sample_path (photo_name t persp +:+ ".png")) = Ok img /\
    match m with Some mk => setitem_mask img mk 0%N | None => Ok img end = Ok photo /\
    getitem (photos self) (Z.of_nat t) = Ok photos_t /\
    getitem photos_t (Z.of_nat k) = Ok photo.
Proof.
  intros Hload Ht Hk.
  apply sample_init_Ok in Hload as (doc & rows & Hdoc & Hrows & Hps & Hhs).
  assert (Hseq : seq 0 7 !! t = Some t) by (apply lookup_seq; lia).
  destruct (Forall2_lookup_l _ _ _ _ _ Hrows Hseq) as ([tp th] & Hrow & Hts).
  apply load_timestep_Ok in Hts as (cells & Hcells & Htp & Hth).
  destruct (Forall2_lookup_l _ _ _ _ _ Hcells Hk) as ([hom photo] & Hcell & Hp).
  apply load_photo_Ok in Hp as (img & Himg & Hhom & Hmasked).
  exists img, photo, tp. repeat split; try assumption.
  - apply (np_array_getitem _ _ _ _ Hps). rewrite list_lookup_fmap, Hrow. reflexivity.
  - apply (np_array_getitem _ _ _ _ Htp). rewrite list_lookup_fmap, Hcell. reflexivity.
Qed.



Lemma string_app_inv_head (s a b : string) : s +:+ a = s +:+ b -> a = b.
Proof.
  induction s as [|c s IH]; simpl; [auto|]. intros [= H]. auto.
Qed.

Lemma path_join_inj (dir a b : string) :
  starts_with_sep a = false -> starts_with_sep b = false ->
  path_join dir a = path_join dir b -> a = b.
Proof.
  unfold path_join. intros -> ->.
  destruct (bool_decide (dir = EmptyString) || ends_with_sep dir); intros H.
  - exact (string_app_inv_head _ _ _ H).
  - apply string_app_inv_head in H. injection H as H. exact H.
Qed.

Lemma mapM_cons {A B} (f : A -> result B) (x : A) (l : list A) :
  mapM f (x :: l) = y ← f x; k ← mapM f l; Ok (y :: k).
Proof. reflexivity. Qed.

Lemma mapM_ext_in {A B} (f g : A -> result B) (l : list A) :
  (forall x, x ∈ l -> f x = g x) -> mapM f l = mapM g l.
Proof.
  induction l as [|x l IH]; intros Hfg; [reflexivity|].
  rewrite !mapM_cons, (Hfg x) by left.
  rewrite IH; [reflexivity|]. intros y Hy. apply Hfg. right. exact Hy.
Qed.

(** None of the 70 photo names is "labels.json" or starts with a slash. *)
Lemma photo_files_not_labels :
  forallb (fun t =>
    forallb (fun persp =>
      negb (starts_with_sep (photo_name t persp +:+ ".png"))
      && negb (bool_decide (photo_name t persp +:+ ".png" = "labels.json"%string)))
      _photo_order) (seq 0 7) = true.
Proof. vm_compute. reflexivity. Qed.

(** X2. Outside validation mode the loader never reads [labels.json]: two
    file systems that differ at most at the labels file of the sample give
    the same result, a sample or an exception. *)
Theorem labels_file_unread_outside_validation (fs fs' : filesystem)
    (sample_path mode : string) (m : option (ndarray bool)) :
  mode <> "validation"%string ->
  (forall p, p <> path_join sample_path "labels.json" -> fs !! p = fs' !! p) ->
  MultiViewTemporalSample_init fs sample_path mode m
  = MultiViewTemporalSample_init fs' sample_path mode m.
Proof.
  intros Hmode Hsame. unfold MultiViewTemporalSample_init.
  assert (Hh : json_load fs (path_join sample_path "homographies.json")
               = json_load fs' (path_join sample_path "homographies.json")).
  { unfold json_load. rewrite Hsame; [reflexivity|].
    intros E. apply path_join_inj in E; [discriminate | reflexivity ..]. }
  rewrite Hh. destruct (json_load fs' _) as [doc|e]; [|reflexivity].
  rewrite !Ok_bind.
  assert (Hrows : mapM (load_timestep fs sample_path doc m) (seq 0 7)
                  = mapM (load_timestep fs' sample_path doc m) (seq 0 7)).
  { apply mapM_ext_in. intros t Ht. unfold load_timestep. f_equal.
    apply mapM_ext_in. intros persp Hp. unfold load_photo, image_open.
    rewrite Hsame; [reflexivity|].
    pose proof (forallb_elem_of _ _ _ (forallb_elem_of _ _ _ photo_files_not_labels Ht) Hp) as Hn.
    simpl in Hn. apply andb_true_iff in Hn as [Hsep Hne].
    apply negb_true_iff in Hsep, Hne. apply bool_decide_eq_false in Hne.
    intros E. apply path_join_inj in E; [contradiction | assumption | reflexivity]. }
  rewrite Hrows. rewrite (bool_decide_eq_false_2 _ Hmode). reflexivity.
Qed.

(** X2, witness: a training sample loads the same with and without a
    labels file in its directory. *)
Lemma labels_file_unread_outside_validation_witness :
  MultiViewTemporalSample_init
    (<["data/train/s0/labels.json"%string := File (Json Fixtures.boxes)]> Fixtures.fs_small)
    "data/train/s0" "train" None
  = MultiViewTemporalSample_init Fixtures.fs_small "data/train/s0" "train" None.
Proof.
  apply labels_file_unread_outside_validation.
  - discriminate.
  - intros p Hp. apply lookup_insert_ne. intros E. apply Hp. rewrite <- E.
    reflexivity.
Defined.




(** ** More on the dataset *)

Lemma dataset_init_Ok fs data_path mode apply_mask ds :
  ImageDataset_init fs data_path mode apply_mask = Ok ds ->
  exists m entries,
    (if apply_mask
     then exists img, image_open fs "data/mask.png" = Ok img /\
                      m = Some (invert (asarray_bool img))
     else m = None) /\
    listdir fs (path_join data_path (lower mode)) = Ok entries /\
    Forall2 (fun s smp =>
               MultiViewTemporalSample_init fs
                 (path_join (path_join data_path (lower mode)) s) (lower mode) m
               = Ok smp)
      (List.filter (fun s => isdir fs (path_join (path_join data_path (lower mode)) s))
         entries)
      (samples ds).
Proof.
  unfold ImageDataset_init. case_bool_decide as Hm; [|discriminate].
  unfold ImageDataset_init_body. intros H.
  apply bind_Ok in H as (m & Hmask & H).
  apply bind_Ok in H as (entries & Hls & H).
  apply bind_Ok in H as (smps & Hs & [= <-]).
  exists m, entries. split; [|split; [exact Hls | apply mapM_Ok; exact Hs]].
  destruct apply_mask.
  - apply bind_Ok in Hmask as (img & Himg & [= <-]). exists img. auto.
  - injection Hmask as <-. reflexivity.
Qed.



(** X5. No sample of a dataset built with [apply_mask=False] can be
    integrated: [integrate] raises the attribute error on each of them, at
    every timestep. *)
Theorem unmasked_dataset_cannot_integrate
    (warp : ndarray N -> ndarray Q -> list nat -> result (ndarray N))
    (fs : filesystem) (data_path mode : string) (ds : ImageDataset)
    (index timestep : Z) (s : MultiViewTemporalSample) :
  ImageDataset_init fs data_path mode false = Ok ds ->
  ImageDataset_getitem ds index = Ok s ->
  integrate warp s timestep = Raise AttributeError.
Proof.
  intros Hds Hget. apply dataset_init_Ok in Hds as (m & entries & -> & _ & Hs).
  unfold ImageDataset_getitem in Hget.
  apply bind_Ok in Hget as (k & _ & Hget).
  destruct (samples ds !! k) as [s'|] eqn:Hk; [|discriminate].
  injection Hget as ->.
  destruct (Forall2_lookup_r _ _ _ _ _ Hs Hk) as (d & _ & Hload).
  apply sample_init_mask in Hload.
  unfold integrate. rewrite Hload. reflexivity.
Qed.

(** X5, witness: the last sample of the unmasked 1024-pixel training set. *)
Lemma unmasked_dataset_cannot_integrate_witness :
  integrate Fixtures.warp_identity
    (get_Ok Fixtures.no_sample
       (ImageDataset_getitem (Fixtures.built Fixtures.fs_big "train" false) (-1))) 0
  = Raise AttributeError.
Proof.
  apply (unmasked_dataset_cannot_integrate Fixtures.warp_identity Fixtures.fs_big
           "data" "train" (Fixtures.built Fixtures.fs_big "train" false) (-1)).
  - apply is_Ok_get. vm_compute. reflexivity.
  - apply is_Ok_get. vm_compute. reflexivity.
Defined.




(** X7. The dataset is all or nothing as well: when the load of one
    directory entry of [<data_path>/<mode>] fails, the construction fails
    and no dataset with the other samples is returned. *)
Theorem dataset_fails_with_sample (fs : filesystem) (data_path mode : string)
    (apply_mask : bool) (entries : list string) (s : string) :
  let dir := path_join data_path (lower mode) in
  listdir fs dir = Ok entries ->
  s ∈ entries ->
  isdir fs (path_join dir s) = true ->
  (forall m, is_Ok (MultiViewTemporalSample_init fs (path_join dir s)
                      (lower mode) m) = false) ->
  exists e, ImageDataset_init fs data_path mode apply_mask = Raise e.
Proof.
  intros dir Hls Hin Hdir Hfail. apply is_Ok_false.
  unfold ImageDataset_init. case_bool_decide; [|reflexivity].
  unfold ImageDataset_init_body. apply is_Ok_bind_r. intros m _.
  fold dir. rewrite Hls, Ok_bind. apply is_Ok_bind_l.
  apply (mapM_Raise _ _ s); [|apply Hfail].
  apply list_elem_of_In, filter_In. split; [apply list_elem_of_In; exact Hin | exact Hdir].
Qed.

(** X7, witness: [s1] has no homographies; [s0] alone would load. *)
Lemma dataset_fails_with_sample_witness :
  is_Ok (MultiViewTemporalSample_init Fixtures.fs_broken_s1 "data/train/s0"
           "train" None) = true /\
  exists e, ImageDataset_init Fixtures.fs_broken_s1 "data" "train" false = Raise e.
Proof.
  split; [vm_compute; reflexivity|].
  apply (dataset_fails_with_sample Fixtures.fs_broken_s1 "data" "train" false
           ["s0"; "notes.txt"; "s1"]%string "s1"%string).
  - vm_compute. reflexivity.
  - by_decide.
  - vm_compute. reflexivity.
  - intros m. unfold MultiViewTemporalSample_init.
    rewrite (json_load_missing Fixtures.fs_broken_s1); [reflexivity|].
    vm_compute. reflexivity.
Defined.





(** ** More on [integrate] *)







Lemma foldlM_fail {A B} (f : A -> B -> result A) (l : list B) (x : B) :
  x ∈ l -> (forall a, is_Ok (f a x) = false) ->
  forall a, is_Ok (foldlM f l a) = false.
Proof.
  induction 1 as [x l | x y l _ IH]; intros Hx a; simpl.
  - apply is_Ok_bind_l, Hx.
  - apply is_Ok_bind_r. intros a' _. apply IH, Hx.
Qed.

(** X11. An exception of the warp is not caught: when the warp of one of
    the views of the timestep raises, [integrate] raises. *)
Theorem integrate_propagates_warp_failure
    (warp : ndarray N -> ndarray Q -> list nat -> result (ndarray N))
    (self : MultiViewTemporalSample) (timestep : Z)
    (views : list (ndarray N * ndarray Q)) (v : ndarray N * ndarray Q) :
  zip_views self timestep = Ok views ->
  v ∈ views ->
  is_Ok (warp v.1 v.2 (take 2 (shape v.1))) = false ->
  exists e, integrate warp self timestep = Raise e.
Proof.
  intros Hviews Hin Hfail. apply is_Ok_false. unfold integrate.
  apply is_Ok_bind_r. intros m _. rewrite Hviews, Ok_bind.
  apply is_Ok_bind_l. apply (foldlM_fail _ _ v Hin).
  intros [ov img]. destruct v as [photo hom]. unfold integrate_step.
  apply is_Ok_bind_l. exact Hfail.
Qed.

(** X11, witness: a warp that always raises, on the first view of
    timestep 0. *)
Lemma integrate_propagates_warp_failure_witness :
  exists e,
    integrate Fixtures.warp_fails
      (Fixtures.loaded Fixtures.fs_big "data/train/s0" "train"
         (Some (Fixtures.mask_of 1024))) 0 = Raise e.
Proof.
  set (s := Fixtures.loaded Fixtures.fs_big "data/train/s0" "train"
              (Some (Fixtures.mask_of 1024))).
  assert (Hz : zip_views s 0 = Ok (get_Ok [] (zip_views s 0)))
    by (apply is_Ok_get; vm_compute; reflexivity).
  assert (Hlen : length (get_Ok [] (zip_views s 0)) = 10%nat)
    by (vm_compute; reflexivity).
  remember (get_Ok [] (zip_views s 0)) as views eqn:E. clear E.
  destruct views as [|v views]; [discriminate Hlen|].
  apply (integrate_propagates_warp_failure Fixtures.warp_fails s 0
           (v :: views) v Hz); [left | reflexivity].
Defined.








(** ** [draw_labels] *)

(** X14. Without [on_integrated], [draw_labels] on a loaded sample draws
    on the photo read from "3-B01.png" (masked when the sample has a mask):
    the centre perspective at the middle timestep is always found, and the
    displayed image is that photo with the rectangles of the labels drawn
    in their order. *)
Theorem draw_labels_on_centre_photo
    (warp : ndarray N -> ndarray Q -> list nat -> result (ndarray N))
    (rect : ndarray N -> Z * Z -> Z * Z -> N * N * N -> Z -> result (ndarray N))
    (fs : filesystem) (sample_path mode : string) (m : option (ndarray bool))
    (self : MultiViewTemporalSample) (labels : list (list Z)) :
  MultiViewTemporalSample_init fs sample_path mode m = Ok self ->
  exists img photo,
    image_open fs (path_join sample_path "3-B01.png") = Ok img /\
    match m with Some mk => setitem_mask img mk 0%N | None => Ok img end = Ok photo /\
    draw_labels warp rect self labels false
    = (image ← foldlM (draw_label rect) labels photo;
       Ok (mk_sample (set_view2 (photos self) 3 4 image) (homographies self)
             (mask self) (labels_of self), image)).
Proof.
  intros Hload.
  destruct (sample_init_cell _ _ _ _ _ 3 4 "B01" Hload)
    as (img & photo & pt & Himg & Hm & Hpt & Hp); [lia | reflexivity |].
  exists img, photo. split; [exact Himg|]. split; [exact Hm|].
  unfold draw_labels. change 3 with (Z.of_nat 3). change 4 with (Z.of_nat 4).
  rewrite Hpt, Ok_bind, Hp, Ok_bind. reflexivity.
Qed.

(** X14, witness: no labels; the image shown for an unmasked sample is the
    photo of "3-B01.png". *)
Lemma draw_labels_on_centre_photo_witness :
  exists self',
    draw_labels Fixtures.warp_identity Fixtures.rect_outline
      (Fixtures.loaded Fixtures.fs_small "data/train/s0" "train" None) [] false
    = Ok (self', Fixtures.photo_px 4 3 4).
Proof.
  destruct (draw_labels_on_centre_photo Fixtures.warp_identity Fixtures.rect_outline
              Fixtures.fs_small "data/train/s0" "train" None
              (Fixtures.loaded Fixtures.fs_small "data/train/s0" "train" None) [])
    as (img & photo & Himg & Hm & Hdraw).
  - apply is_Ok_get. vm_compute. reflexivity.
  - injection Hm as <-.
    assert (img = Fixtures.photo_px 4 3 4) as ->
      by (vm_compute in Himg; injection Himg as <-; reflexivity).
    eexists. exact Hdraw.
Defined.

(** X15. The rectangles drawn on the raw photo stay in the sample: when a
    call of [draw_labels] without [on_integrated] has returned, a second
    call on the sample draws over the image of the first call, not over the
    photo as it was loaded.  (The rectangle routine keeps the shape of the
    image it draws on.) *)
Theorem draw_labels_accumulate
    (warp : ndarray N -> ndarray Q -> list nat -> result (ndarray N))
    (rect : ndarray N -> Z * Z -> Z * Z -> N * N * N -> Z -> result (ndarray N))
    (self self1 : MultiViewTemporalSample) (labels1 labels2 : list (list Z))
    (image1 : ndarray N) (rest : list nat) :
  shape (photos self) = 7%nat :: 10%nat :: rest ->
  draw_labels warp rect self labels1 false = Ok (self1, image1) ->
  shape image1 = rest ->
  draw_labels warp rect self1 labels2 false
  = (image ← foldlM (draw_label rect) labels2 image1;
     Ok (mk_sample (set_view2 (photos self1) 3 4 image) (homographies self1)
           (mask self1) (labels_of self1), image)).
Proof.
  intros Hshape Hdraw Hs1. unfold draw_labels in Hdraw.
  apply bind_Ok in Hdraw as (image0 & _ & Hdraw).
  apply bind_Ok in Hdraw as (image1' & _ & [= <- <-]).
  unfold draw_labels at 1. cbn [photos]. unfold getitem at 2. cbn [set_view2 shape].
  rewrite Hshape. change (normalize_index 7 3) with (Ok (A:=nat) 3%nat).
  rewrite Ok_bind, Ok_bind. unfold getitem. cbn [shape].
  change (normalize_index 10 4) with (Ok (A:=nat) 4%nat).
  rewrite Ok_bind, Ok_bind. cbn [item].
  destruct image1' as [s1 i1]. simpl in Hs1. subst s1. reflexivity.
Qed.

(** X15, witness: a box drawn on the centre photo is still there when a
    second call draws nothing: the second image is the first. *)
Lemma draw_labels_accumulate_witness :
  exists self1 image1 self2,
    draw_labels Fixtures.warp_identity Fixtures.rect_outline
      (Fixtures.loaded Fixtures.fs_small "data/train/s0" "train" None)
      [[1; 1; 2; 2]] false = Ok (self1, image1) /\
    draw_labels Fixtures.warp_identity Fixtures.rect_outline self1 [] false
    = Ok (self2, image1) /\
    item image1 [0; 0; 2]%nat = 255%N /\
    item (Fixtures.photo_px 4 3 4) [0; 0; 2]%nat = 46%N.
Proof.
  set (s := Fixtures.loaded Fixtures.fs_small "data/train/s0" "train" None).
  set (r := draw_labels Fixtures.warp_identity Fixtures.rect_outline s
              [[1; 1; 2; 2]] false).
  set (p := get_Ok (Fixtures.no_sample, np_uint8 (mk_ndarray [] (fun _ => 0%Q))) r).
  assert (Hr : r = Ok (p.1, p.2)).
  { rewrite <- surjective_pairing. apply is_Ok_get. vm_compute. reflexivity. }
  exists p.1, p.2. eexists. split; [exact Hr|]. split; [|split].
  - rewrite (draw_labels_accumulate Fixtures.warp_identity Fixtures.rect_outline
               s p.1 [[1; 1; 2; 2]] [] p.2 [4; 4; 3]%nat).
    + reflexivity.
    + vm_compute. reflexivity.
    + exact Hr.
    + vm_compute. reflexivity.
  - vm_compute. reflexivity.
  - vm_compute. reflexivity.
Defined.

(** X16. A label with fewer than four numbers stops [draw_labels] with an
    exception, with or without [on_integrated]. *)
Theorem draw_labels_short_label
    (warp : ndarray N -> ndarray Q -> list nat -> result (ndarray N))
    (rect : ndarray N -> Z * Z -> Z * Z -> N * N * N -> Z -> result (ndarray N))
    (self : MultiViewTemporalSample) (labels : list (list Z))
    (on_integrated : bool) (label : list Z) :
  label ∈ labels ->
  (length label < 4)%nat ->
  exists e, draw_labels warp rect self labels on_integrated = Raise e.
Proof.
  intros Hin Hlen. apply is_Ok_false. unfold draw_labels.
  apply is_Ok_bind_r. intros image _. apply is_Ok_bind_l.
  apply (foldlM_fail _ _ label Hin). intros a. unfold draw_label.
  do 3 (apply is_Ok_bind_r; intros ? _). apply is_Ok_bind_l.
  unfold label_get. rewrite (lookup_ge_None_2 label 3) by lia. reflexivity.
Qed.

(** X16, witness: the second label has three numbers. *)
Lemma draw_labels_short_label_witness :
  exists e,
    draw_labels Fixtures.warp_identity Fixtures.rect_outline
      (Fixtures.loaded Fixtures.fs_small "data/train/s0" "train" None)
      [[1; 1; 2; 2]; [0; 0; 3]] false = Raise e.
Proof.
  apply (draw_labels_short_label _ _ _ _ _ [0; 0; 3]).
  - by_decide.
  - simpl. lia.
Defined.
